(** * Kato status tracker ([spinnaker_testing/kato.py])

    A shallow embedding of [_KatoStatus]: the constructor [__init__], the
    update step [_update_response_from_json] and the read-only properties
    [finished], [finished_ok] and [timed_out], followed by the properties of
    the tracker that the specification states.

    Python objects are mutable, and an exception raised half-way through a
    method leaves the assignments made so far in place.  Methods are therefore
    written in a small state-and-exception monad over the tracker's
    attributes: running a method gives an outcome (a result or the exception
    raised) together with the attributes as they are when the method is left. *)

From Stdlib Require Import ZArith List String Ascii Bool Lia.
From Stdlib Require Import Floats.SpecFloat.
Import ListNotations.
Open Scope string_scope.
Local Set Warnings "-register-all".

(** ** Python values *)

Module Py.

(** The values [json.JSONDecoder().decode] produces, which are also the values
    the tracker's attributes hold: [None], [bool], [int], [float], [str],
    [list], and [dict] with string keys.  A [dict] is kept as the list of its
    items (see [dict_get]). *)
Inductive value : Type :=
| VNone
| VBool (b : bool)
| VInt (z : Z)
| VFloat (f : spec_float)
| VStr (s : string)
| VList (l : list value)
| VDict (items : list (string * value)).

(** The exceptions of the modelled code.  [ValueError] and [TypeError]
    stand for these classes and their subclasses, as an [except] clause
    takes them; [OtherError] is an exception of any class outside the ones
    listed. *)
Inductive exn : Type :=
| KeyError (key : string)
| TypeError
| ValueError
| AttributeError
| RecursionError
| OtherError (class_name : string).

(** Python's truth value of an object, as tested by [if x:]. *)
Definition truthy (v : value) : bool :=
  match v with
  | VNone => false
  | VBool b => b
  | VInt z => negb (z =? 0)%Z
  | VFloat (S754_zero _) => false
  | VFloat _ => true
  | VStr s => match s with EmptyString => false | String _ _ => true end
  | VList l => match l with [] => false | _ :: _ => true end
  | VDict d => match d with [] => false | _ :: _ => true end
  end.

(** [isinstance(v, dict)]. *)
Definition isinstance_dict (v : value) : bool :=
  match v with
  | VDict _ => true
  | _ => false
  end.

(** Lookup of a key among the items of a dict: the first item with that key. *)
Fixpoint dict_get (items : list (string * value)) (key : string) : option value :=
  match items with
  | [] => None
  | (k, v) :: rest => if k =? key then Some v else dict_get rest key
  end.

(** [v[key]] for a string key: a dict yields the item or raises [KeyError];
    every other value of the type raises [TypeError] (not subscriptable, or
    indices must be integers). *)
Definition getitem (v : value) (key : string) : value + exn :=
  match v with
  | VDict items =>
      match dict_get items key with
      | Some x => inl x
      | None => inr (KeyError key)
      end
  | _ => inr TypeError
  end.

End Py.
Import Py.

(** ** Methods: attribute state and exceptions *)

Module Method.

Section WithState.
Context {S : Type}.

(** A method body run on attributes [s]: the outcome and the attributes
    when the body is left. *)
Definition M (A : Type) : Type := S -> (A + exn) * S.

Definition ret {A} (a : A) : M A := fun s => (inl a, s).

Definition bind {A B} (m : M A) (k : A -> M B) : M B :=
  fun s =>
    match m s with
    | (inl a, s') => k a s'
    | (inr e, s') => (inr e, s')
    end.

Definition raise {A} (e : exn) : M A := fun s => (inr e, s).

(** Evaluation of an expression that may raise and assigns nothing. *)
Definition eval {A} (r : A + exn) : M A := fun s => (r, s).

(** An assignment to attributes. *)
Definition assign (f : S -> S) : M unit := fun s => (inl tt, f s).

(** [if c: body] without an else branch. *)
Definition when (c : bool) (body : M unit) : M unit :=
  if c then body else ret tt.

(** [try: body  except ValueError: handler  except TypeError: handler']:
    only these two exceptions are caught. *)
Definition try_except {A} (body : M A)
    (on_value_error on_type_error : M A) : M A :=
  fun s =>
    match body s with
    | (inr ValueError, s') => on_value_error s'
    | (inr TypeError, s') => on_type_error s'
    | r => r
    end.
End WithState.

Declare Scope method_scope.
Delimit Scope method_scope with method.
Notation "x <- m ;; k" := (bind m (fun x => k))
  (at level 61, m at next level, right associativity) : method_scope.
Notation "m ;; k" := (bind m (fun _ => k))
  (at level 61, right associativity) : method_scope.

End Method.
Import Method.

(** ** The tracker *)

(** The response object handed to the constructor; of its attributes the
    class reads [output], the body text ([None] when there is none). *)
Record HttpResponseType : Type := {
  output : value
}.

(** The attributes of a [_KatoStatus] object that the class reads or
    assigns.  [_finished] only ever receives [True] or [False]; [_failed]
    receives [False], [True] or whatever the poll document carries. *)
Record KatoStatus : Type := {
  _finished : bool;
  _failed : value;
  _current_state : value;
  _exception_details : value;
  _detail_path : value;
  _request_id : value;
  _error : value
}.

Definition set_finished (b : bool) (t : KatoStatus) : KatoStatus :=
  {| _finished := b; _failed := _failed t;
     _current_state := _current_state t;
     _exception_details := _exception_details t;
     _detail_path := _detail_path t; _request_id := _request_id t;
     _error := _error t |}.

Definition set_failed (v : value) (t : KatoStatus) : KatoStatus :=
  {| _finished := _finished t; _failed := v;
     _current_state := _current_state t;
     _exception_details := _exception_details t;
     _detail_path := _detail_path t; _request_id := _request_id t;
     _error := _error t |}.

Definition set_current_state (v : value) (t : KatoStatus) : KatoStatus :=
  {| _finished := _finished t; _failed := _failed t;
     _current_state := v;
     _exception_details := _exception_details t;
     _detail_path := _detail_path t; _request_id := _request_id t;
     _error := _error t |}.

Definition set_exception_details (v : value) (t : KatoStatus) : KatoStatus :=
  {| _finished := _finished t; _failed := _failed t;
     _current_state := _current_state t;
     _exception_details := v;
     _detail_path := _detail_path t; _request_id := _request_id t;
     _error := _error t |}.

Definition set_detail_path (v : value) (t : KatoStatus) : KatoStatus :=
  {| _finished := _finished t; _failed := _failed t;
     _current_state := _current_state t;
     _exception_details := _exception_details t;
     _detail_path := v; _request_id := _request_id t;
     _error := _error t |}.

Definition set_request_id (v : value) (t : KatoStatus) : KatoStatus :=
  {| _finished := _finished t; _failed := _failed t;
     _current_state := _current_state t;
     _exception_details := _exception_details t;
     _detail_path := _detail_path t; _request_id := v;
     _error := _error t |}.

Definition set_error (v : value) (t : KatoStatus) : KatoStatus :=
  {| _finished := _finished t; _failed := _failed t;
     _current_state := _current_state t;
     _exception_details := _exception_details t;
     _detail_path := _detail_path t; _request_id := _request_id t;
     _error := v |}.

(** *** Properties *)

(** [finished]: [return self._finished]. *)
Definition finished (t : KatoStatus) : bool := _finished t.

(** [finished_ok]: [return self._finished and not self._failed]. *)
Definition finished_ok (t : KatoStatus) : bool :=
  _finished t && negb (truthy (_failed t)).

(** [timed_out]: [return False]. *)
Definition timed_out (t : KatoStatus) : bool := false.

(** The tracker's failure flag read as a truth value, and the two tracking
    identifiers under the names the specification gives them. *)
Definition failed (t : KatoStatus) : bool := truthy (_failed t).
Definition resource_uri (t : KatoStatus) : value := _detail_path t.
Definition request_id (t : KatoStatus) : value := _request_id t.

(** The fields of a tracker that its users read. *)
Definition observable (t : KatoStatus)
  : bool * value * value * value * value * value :=
  (finished t, _failed t, _current_state t, _exception_details t,
   resource_uri t, request_id t).

(** *** The update step *)

Local Open Scope method_scope.

(** [_update_response_from_json(self, doc)], statement by statement.  The
    three subscripts of lines 81-83 and the one of line 84 are evaluated
    before the first assignment; the subscript of line 90 comes after the
    assignments of lines 84-88. *)
Definition _update_response_from_json (doc : value) : M (S:=KatoStatus) unit :=
  status <- eval (getitem doc "status") ;;
  completed <- eval (getitem status "completed") ;;
  failed <- eval (getitem status "failed") ;;
  phase <- eval (getitem status "phase") ;;
  assign (set_current_state phase) ;;
  assign (set_exception_details VNone) ;;
  completed' <- eval (getitem status "completed") ;;
  when (truthy completed')
    (assign (set_finished true) ;;
     assign (set_failed failed)) ;;
  when (truthy failed)
    (detail <- eval (getitem status "status") ;;
     assign (set_exception_details detail)).

(** The tracker after one update step, whether the step returned or raised,
    and after a sequence of them. *)
Definition poll (t : KatoStatus) (doc : value) : KatoStatus :=
  snd (_update_response_from_json doc t).

Definition poll_all (t : KatoStatus) (docs : list value) : KatoStatus :=
  fold_left poll docs t.

(** What the update step needs of a poll document before it assigns
    anything: a [status] object with [completed], [failed] and [phase]. *)
Definition poll_fields (doc st completed failed phase : value) : Prop :=
  getitem doc "status" = inl st /\
  getitem st "completed" = inl completed /\
  getitem st "failed" = inl failed /\
  getitem st "phase" = inl phase.

(** The tracker after lines 84-88. *)
Definition after_flags (completed failed phase : value) (t : KatoStatus)
  : KatoStatus :=
  let t1 := set_exception_details VNone (set_current_state phase t) in
  if truthy completed then set_failed failed (set_finished true t1) else t1.

(** While a tracker is not finished its failure flag is the [False] of the
    constructor. *)
Definition flags_ok (t : KatoStatus) : Prop :=
  _finished t = false -> _failed t = VBool false.

(** *** The constructor *)

Definition dquote : string := String "034"%char EmptyString.

(** The terminal state the constructor assigns on lines 71-74. *)
Definition internal_error (message : string) (t : KatoStatus) : KatoStatus :=
  set_current_state (VStr "CITEST_INTERNAL_ERROR")
    (set_failed (VBool true)
       (set_finished true (set_error (VStr message) t))).

(** The outcomes of the decoder call of line 61 after which [doc] is not a
    dict at line 67: a decoded value of another type, or one of the two
    exceptions that lines 62-65 catch. *)
Definition leaves_no_dict (outcome : value + exn) : bool :=
  match outcome with
  | inl v => negb (isinstance_dict v)
  | inr ValueError => true
  | inr TypeError => true
  | inr _ => false
  end.

Section Constructor.

(** What the class takes from outside this file: the operation type, the
    attributes [SpinnakerStatus.__init__] leaves on the new object, the
    JSON decoder of [json.JSONDecoder] on a text, and [str] of a response
    object.  The decoder gives the decoded value or the exception it raises:
    [ValueError] for a text that is not JSON, but also [RecursionError] for a
    text nested deeper than the interpreter allows. *)
Variable Operation : Type.
Variable super__init__ : Operation -> option HttpResponseType -> KatoStatus.
Variable json_loads : string -> value + exn.
Variable response_str : HttpResponseType -> string.

(** [json.JSONDecoder().decode(x)]: [TypeError] unless [x] is a string,
    otherwise what the decoder does on the text. *)
Definition json_decode (x : value) : value + exn :=
  match x with
  | VStr s => json_loads s
  | _ => inr TypeError
  end.

(** [original_response.output]; [None] has no such attribute. *)
Definition getattr_output (original_response : option HttpResponseType)
  : value + exn :=
  match original_response with
  | Some r => inl (output r)
  | None => inr AttributeError
  end.

(** ['Invalid response="{0}"'.format(original_response)]. *)
Definition format_invalid (original_response : option HttpResponseType)
  : string :=
  "Invalid response=" ++ dquote ++
  match original_response with
  | Some r => response_str r
  | None => "None"
  end ++ dquote.

(** The attributes after lines 56-57. *)
Definition started (operation : Operation)
    (original_response : option HttpResponseType) : KatoStatus :=
  set_failed (VBool false)
    (set_finished false (super__init__ operation original_response)).

(** The body of [__init__] after the call of the base constructor
    (lines 56-74), run on the attributes that call left. *)
Definition __init__body (original_response : option HttpResponseType)
  : M (S:=KatoStatus) unit :=
  assign (set_finished false) ;;
  assign (set_failed (VBool false)) ;;
  doc <- try_except
           (out <- eval (getattr_output original_response) ;;
            eval (json_decode out))
           (ret VNone)
           (ret VNone) ;;
  if isinstance_dict doc then
    uri <- eval (getitem doc "resourceUri") ;;
    assign (set_detail_path uri) ;;
    id <- eval (getitem doc "id") ;;
    assign (set_request_id id)
  else
    assign (set_error (VStr (format_invalid original_response))) ;;
    assign (set_finished true) ;;
    assign (set_failed (VBool true)) ;;
    assign (set_current_state (VStr "CITEST_INTERNAL_ERROR")).

(** [__init__(self, operation, original_response=None)]. *)
Definition __init__ (operation : Operation)
    (original_response : option HttpResponseType)
  : (unit + exn) * KatoStatus :=
  __init__body original_response (super__init__ operation original_response).

(** [_KatoStatus.new(operation, original_response)]: the object when the
    constructor returns, the exception when it raises. *)
Definition new (operation : Operation)
    (original_response : option HttpResponseType) : KatoStatus + exn :=
  match __init__ operation original_response with
  | (inl _, t) => inl t
  | (inr e, _) => inr e
  end.

End Constructor.

(** ** A decoder for a fragment of JSON

    The constructor is parametric in the JSON grammar.  To run it on
    concrete response texts, this module gives a decoder for the fragment of
    JSON made of objects, arrays, strings without escape sequences, integers
    and the literals [true], [false] and [null].  Texts outside the fragment
    (fractions, exponents, escapes) are rejected here with [ValueError]; a
    text nested deeper than [recursion_limit] gives [RecursionError]. *)

Module Json.

Definition is_ws (c : ascii) : bool :=
  match nat_of_ascii c with
  | 32 | 9 | 10 | 13 => true
  | _ => false
  end.

Fixpoint skip_ws (s : string) : string :=
  match s with
  | String c r => if is_ws c then skip_ws r else s
  | EmptyString => s
  end.

Definition is_digit (c : ascii) : bool :=
  (48 <=? nat_of_ascii c)%nat && (nat_of_ascii c <=? 57)%nat.

Definition digit_val (c : ascii) : Z := Z.of_nat (nat_of_ascii c - 48).

(** A run of digits, most significant first. *)
Fixpoint digits (acc : Z) (s : string) : Z * string :=
  match s with
  | String c r =>
      if is_digit c then digits (10 * acc + digit_val c)%Z r else (acc, s)
  | EmptyString => (acc, s)
  end.

(** An integer without sign: [0], or a run of digits not starting with [0];
    a fraction or an exponent after it is outside the fragment. *)
Definition natural (s : string) : option (Z * string) :=
  match s with
  | String c r =>
      if is_digit c then
        let (n, rest) :=
          if (nat_of_ascii c =? 48)%nat then (0%Z, r) else digits 0 s in
        match rest with
        | String d _ =>
            match nat_of_ascii d with
            | 46 | 69 | 101 => None
            | _ => Some (n, rest)
            end
        | EmptyString => Some (n, rest)
        end
      else None
  | EmptyString => None
  end.

(** The characters of a string up to its closing quote.  No escapes, no
    control characters. *)
Fixpoint string_body (s : string) : option (string * string) :=
  match s with
  | EmptyString => None
  | String c r =>
      match nat_of_ascii c with
      | 34 => Some (EmptyString, r)
      | 92 => None
      | n =>
          if (n <? 32)%nat then None
          else
            match string_body r with
            | Some (body, rest) => Some (String c body, rest)
            | None => None
            end
      end
  end.

(** [s] without the prefix [p], when it starts with it. *)
Fixpoint strip (p s : string) : option string :=
  match p, s with
  | EmptyString, _ => Some s
  | String a p', String b s' => if (a =? b)%char then strip p' s' else None
  | String _ _, EmptyString => None
  end.

(** Assignment [d[k] = v] on the items of a dict: a key that is present
    keeps its place and takes the new value. *)
Fixpoint dict_set (items : list (string * value)) (k : string) (v : value)
  : list (string * value) :=
  match items with
  | [] => [(k, v)]
  | (k', v') :: rest =>
      if k' =? k then (k', v) :: rest else (k', v') :: dict_set rest k v
  end.

(** The number of nested arrays and objects the decoder accepts before it
    raises [RecursionError]: the interpreter's default recursion limit. *)
Definition recursion_limit : nat := 1000.

(** Recursive descent.  [value_at] reads one value at the start of the text;
    [elements_at] and [members_at] read what follows the opening bracket or
    a comma.  Every call that goes one level down has consumed a character,
    which is why [loads] gives fuel twice the length of the text.  [depth]
    is the number of arrays and objects that may still be entered: the
    decoder checks it when it meets an opening bracket, before it reads
    what is inside. *)
Fixpoint value_at (fuel depth : nat) (s : string) : (value * string) + exn :=
  match fuel with
  | O => inr ValueError
  | S fuel' =>
      match s with
      | EmptyString => inr ValueError
      | String c r =>
          match nat_of_ascii c with
          | 123 =>
              match depth with
              | O => inr RecursionError
              | S depth' =>
                  match skip_ws r with
                  | String d r' =>
                      if (nat_of_ascii d =? 125)%nat then inl (VDict [], r')
                      else members_at fuel' depth' [] (skip_ws r)
                  | EmptyString => inr ValueError
                  end
              end
          | 91 =>
              match depth with
              | O => inr RecursionError
              | S depth' =>
                  match skip_ws r with
                  | String d r' =>
                      if (nat_of_ascii d =? 93)%nat then inl (VList [], r')
                      else elements_at fuel' depth' [] (skip_ws r)
                  | EmptyString => inr ValueError
                  end
              end
          | 34 =>
              match string_body r with
              | Some (body, rest) => inl (VStr body, rest)
              | None => inr ValueError
              end
          | 45 =>
              match natural r with
              | Some (n, rest) => inl (VInt (- n), rest)
              | None => inr ValueError
              end
          | _ =>
              match strip "true" s, strip "false" s, strip "null" s with
              | Some rest, _, _ => inl (VBool true, rest)
              | _, Some rest, _ => inl (VBool false, rest)
              | _, _, Some rest => inl (VNone, rest)
              | _, _, _ =>
                  match natural s with
                  | Some (n, rest) => inl (VInt n, rest)
                  | None => inr ValueError
                  end
              end
          end
      end
  end

with elements_at (fuel depth : nat) (acc : list value) (s : string)
  : (value * string) + exn :=
  match fuel with
  | O => inr ValueError
  | S fuel' =>
      match value_at fuel' depth s with
      | inl (v, rest) =>
          match skip_ws rest with
          | String c r =>
              match nat_of_ascii c with
              | 44 => elements_at fuel' depth (acc ++ [v]) (skip_ws r)
              | 93 => inl (VList (acc ++ [v]), r)
              | _ => inr ValueError
              end
          | EmptyString => inr ValueError
          end
      | inr e => inr e
      end
  end

with members_at (fuel depth : nat) (acc : list (string * value)) (s : string)
  : (value * string) + exn :=
  match fuel with
  | O => inr ValueError
  | S fuel' =>
      match s with
      | String q r =>
          if (nat_of_ascii q =? 34)%nat then
            match string_body r with
            | Some (key, rest) =>
                match skip_ws rest with
                | String c r1 =>
                    if (nat_of_ascii c =? 58)%nat then
                      match value_at fuel' depth (skip_ws r1) with
                      | inl (v, rest') =>
                          match skip_ws rest' with
                          | String c' r2 =>
                              match nat_of_ascii c' with
                              | 44 =>
                                  members_at fuel' depth (dict_set acc key v)
                                    (skip_ws r2)
                              | 125 => inl (VDict (dict_set acc key v), r2)
                              | _ => inr ValueError
                              end
                          | EmptyString => inr ValueError
                          end
                      | inr e => inr e
                      end
                    else inr ValueError
                | EmptyString => inr ValueError
                end
            | None => inr ValueError
            end
          else inr ValueError
      | EmptyString => inr ValueError
      end
  end.

(** The whole text is one value between optional white space. *)
Definition loads (s : string) : value + exn :=
  match value_at (2 * String.length s + 2) recursion_limit (skip_ws s) with
  | inl (v, rest) =>
      match skip_ws rest with
      | EmptyString => inl v
      | String _ _ => inr ValueError
      end
  | inr e => inr e
  end.

End Json.

(** ** A concrete instance of the constructor's parameters

    Operations are named by a string; the base constructor leaves every
    attribute at [None]; [str] of a response shows its body. *)

Module Fixture.

Definition blank : KatoStatus :=
  {| _finished := false; _failed := VBool false;
     _current_state := VNone; _exception_details := VNone;
     _detail_path := VNone; _request_id := VNone; _error := VNone |}.

Definition super__init__ (operation : string)
    (original_response : option HttpResponseType) : KatoStatus := blank.

Definition response_str (r : HttpResponseType) : string :=
  match output r with
  | VStr s => s
  | _ => "None"
  end.

Definition operation : string := "upsertLoadBalancer".

Definition response (text : string) : HttpResponseType :=
  {| output := VStr text |}.

Definition make (text : string) : KatoStatus + exn :=
  new string super__init__ Json.loads response_str
    operation (Some (response text)).

(** [{"k": v, ...}] written without quote characters in the literals. *)
Definition key (k : string) : string := dquote ++ k ++ dquote.

Definition submitted_text : string :=
  "{" ++ key "id" ++ ": " ++ key "42" ++ ", "
      ++ key "resourceUri" ++ ": " ++ key "/task/42" ++ "}".

Definition no_identifier_text : string := "{}".

Definition no_id_text : string :=
  "{" ++ key "resourceUri" ++ ": " ++ key "/task/42" ++ "}".

Definition gateway_error_text : string := "<html>502 Bad Gateway</html>".

Definition array_text : string := "[1, 2]".

(** [n] copies of a text, and two texts of 2000 nested arrays: left open,
    and closed. *)
Fixpoint copies (n : nat) (s : string) : string :=
  match n with
  | O => EmptyString
  | S n' => s ++ copies n' s
  end.

Definition deep_open_text : string := copies 2000 "[".

Definition deep_array_text : string := copies 2000 "[" ++ copies 2000 "]".

(** Poll documents. *)
Definition poll_status (completed failed : bool) (phase : string)
    (detail : list (string * value)) : value :=
  VDict ([("completed", VBool completed);
          ("failed", VBool failed);
          ("phase", VStr phase)] ++ detail).

Definition poll_doc (completed failed : bool) (phase : string)
    (detail : list (string * value)) : value :=
  VDict [("id", VStr "42");
         ("status", poll_status completed failed phase detail)].

Definition running_doc : value := poll_doc false false "RUNNING" [].
Definition succeeded_doc : value := poll_doc true false "SUCCEEDED" [].
Definition failed_detail : value := VStr "Quota exceeded".
Definition failed_doc : value :=
  poll_doc true true "FAILED" [("status", failed_detail)].
Definition failing_step_doc : value :=
  poll_doc false true "ORCHESTRATION" [("status", failed_detail)].

(** The trackers the constructor gives for [submitted_text] and for
    [gateway_error_text]. *)
Definition submitted : KatoStatus :=
  {| _finished := false; _failed := VBool false;
     _current_state := VNone; _exception_details := VNone;
     _detail_path := VStr "/task/42"; _request_id := VStr "42";
     _error := VNone |}.

Definition errored : KatoStatus :=
  {| _finished := true; _failed := VBool true;
     _current_state := VStr "CITEST_INTERNAL_ERROR";
     _exception_details := VNone;
     _detail_path := VNone; _request_id := VNone;
     _error := VStr ("Invalid response=" ++ key gateway_error_text) |}.

End Fixture.

(** * Properties *)

(** ** The update step, case by case *)


Ltac run_method :=
  cbv [bind eval assign when ret raise try_except].

Lemma update_run doc st c f p t :
  poll_fields doc st c f p ->
  _update_response_from_json doc t =
    if truthy f then
      match getitem st "status" with
      | inl detail =>
          (inl tt, set_exception_details detail (after_flags c f p t))
      | inr e => (inr e, after_flags c f p t)
      end
    else (inl tt, after_flags c f p t).
Proof.
  intros (Hst & Hc & Hf & Hp).
  unfold _update_response_from_json, after_flags. run_method.
  rewrite Hst, Hc, Hf, Hp.
  destruct (truthy c), (truthy f); try reflexivity;
    destruct (getitem st "status"); reflexivity.
Qed.

(** A document without those fields makes the step raise before its first
    assignment. *)
Lemma update_cases doc t :
  (exists e, _update_response_from_json doc t = (inr e, t)) \/
  (exists st c f p, poll_fields doc st c f p).
Proof.
  unfold poll_fields.
  destruct (getitem doc "status") as [st|e] eqn:Hst.
  2:{ left. exists e. unfold _update_response_from_json. run_method.
      now rewrite Hst. }
  destruct (getitem st "completed") as [c|e] eqn:Hc.
  2:{ left. exists e. unfold _update_response_from_json. run_method.
      now rewrite Hst, Hc. }
  destruct (getitem st "failed") as [f|e] eqn:Hf.
  2:{ left. exists e. unfold _update_response_from_json. run_method.
      now rewrite Hst, Hc, Hf. }
  destruct (getitem st "phase") as [p|e] eqn:Hp.
  2:{ left. exists e. unfold _update_response_from_json. run_method.
      now rewrite Hst, Hc, Hf, Hp. }
  right. exists st, c, f, p. auto.
Qed.

(** The tracker a poll leaves is the old one, or the one after lines 84-88
    with or without the assignment of line 90. *)
Lemma poll_cases t doc :
  poll t doc = t \/
  exists st c f p, poll_fields doc st c f p /\
    (poll t doc = after_flags c f p t \/
     exists detail, truthy f = true /\
       poll t doc = set_exception_details detail (after_flags c f p t)).
Proof.
  unfold poll.
  destruct (update_cases doc t) as [[e He]|(st & c & f & p & H)].
  - left. now rewrite He.
  - right. exists st, c, f, p. split; [exact H|].
    rewrite (update_run _ _ _ _ _ t H).
    destruct (truthy f) eqn:Hf; [|now left].
    destruct (getitem st "status") as [d|e]; [|now left].
    right. exists d. auto.
Qed.

(** *** Frame: what no poll assigns *)

Lemma after_flags_frame c f p t :
  _detail_path (after_flags c f p t) = _detail_path t /\
  _request_id (after_flags c f p t) = _request_id t /\
  _error (after_flags c f p t) = _error t.
Proof. unfold after_flags. destruct (truthy c); repeat split. Qed.

Lemma poll_frame t doc :
  _detail_path (poll t doc) = _detail_path t /\
  _request_id (poll t doc) = _request_id t /\
  _error (poll t doc) = _error t.
Proof.
  destruct (poll_cases t doc) as [->|(st & c & f & p & _ & [->|(d & _ & ->)])];
    [repeat split | apply after_flags_frame | ].
  cbn [set_exception_details _detail_path _request_id _error].
  apply after_flags_frame.
Qed.

Lemma poll_all_frame docs : forall t,
  _detail_path (poll_all t docs) = _detail_path t /\
  _request_id (poll_all t docs) = _request_id t /\
  _error (poll_all t docs) = _error t.
Proof.
  induction docs as [|doc docs IH]; intros t; [repeat split|].
  cbn [poll_all fold_left]. fold (poll_all (poll t doc) docs).
  destruct (IH (poll t doc)) as (-> & -> & ->). apply poll_frame.
Qed.

(** *** The flags *)

(** [_finished] is never reset. *)
Lemma poll_finished_stays t doc :
  _finished t = true -> _finished (poll t doc) = true.
Proof.
  intros Ht.
  destruct (poll_cases t doc) as [->|(st & c & f & p & _ & [->|(d & _ & ->)])];
    [exact Ht | | ]; unfold after_flags; destruct (truthy c); exact Ht || reflexivity.
Qed.


Lemma poll_flags_ok t doc : flags_ok t -> flags_ok (poll t doc).
Proof.
  unfold flags_ok. intros Ht.
  destruct (poll_cases t doc) as [->|(st & c & f & p & _ & [->|(d & _ & ->)])];
    [exact Ht | | ]; unfold after_flags; destruct (truthy c); cbn;
    intros; try discriminate; auto.
Qed.

Lemma poll_all_flags_ok docs : forall t,
  flags_ok t -> flags_ok (poll_all t docs).
Proof.
  induction docs as [|doc docs IH]; intros t Ht; [exact Ht|].
  cbn [poll_all fold_left]. apply IH, poll_flags_ok, Ht.
Qed.

(** ** The constructor, case by case *)


Section ConstructorFacts.

Variable Operation : Type.
Variable super__init__ : Operation -> option HttpResponseType -> KatoStatus.
Variable json_loads : string -> value + exn.
Variable response_str : HttpResponseType -> string.

Local Abbreviation init := (__init__ Operation super__init__ json_loads response_str).
Local Abbreviation make := (new Operation super__init__ json_loads response_str).
Local Abbreviation start := (started Operation super__init__).


Lemma init_run op resp :
  init op resp =
    match resp with
    | None => (inr AttributeError, start op resp)
    | Some r =>
        match json_decode json_loads (output r) with
        | inl (VDict items) =>
            match dict_get items "resourceUri" with
            | None => (inr (KeyError "resourceUri"), start op resp)
            | Some uri =>
                match dict_get items "id" with
                | None =>
                    (inr (KeyError "id"),
                     set_detail_path uri (start op resp))
                | Some id =>
                    (inl tt,
                     set_request_id id
                       (set_detail_path uri (start op resp)))
                end
            end
        | inl _ | inr ValueError | inr TypeError =>
            (inl tt,
             internal_error (format_invalid response_str resp)
               (start op resp))
        | inr e => (inr e, start op resp)
        end
    end.
Proof.
  unfold __init__, __init__body, started, internal_error. run_method.
  destruct resp as [r|]; cbn [getattr_output]; [|reflexivity].
  destruct (json_decode json_loads (output r)) as [v|e].
  - destruct v as [| | | | | |items]; try reflexivity.
    cbn [isinstance_dict getitem].
    destruct (dict_get items "resourceUri"); [|reflexivity].
    destruct (dict_get items "id"); reflexivity.
  - destruct e; reflexivity.
Qed.

(** A constructed tracker is not finished, with the failure flag [False],
    or finished. *)
Lemma new_flags_ok op resp t : make op resp = inl t -> flags_ok t.
Proof.
  unfold new. rewrite init_run. unfold flags_ok.
  destruct resp as [r|]; [|discriminate].
  destruct (json_decode json_loads (output r)) as [[| | | | | |items]|[]];
    try discriminate;
    try (intros [= <-]; cbn; intros; (discriminate || reflexivity)).
  destruct (dict_get items "resourceUri"); [|discriminate].
  destruct (dict_get items "id"); [|discriminate].
  intros [= <-]. reflexivity.
Qed.

(** *** Malformed initial responses *)

(** C1, as the code behaves: when the body of the initial response decodes
    to a JSON object without [resourceUri], or with it but without [id], the
    constructor does not complete: the subscript of line 68 or of line 69
    raises [KeyError] for the first missing key, and no tracker is made.
    The internal-error state is not entered. *)
Theorem init_missing_identifier_raises op r s items :
  output r = VStr s ->
  json_loads s = inl (VDict items) ->
  dict_get items "resourceUri" = None \/ dict_get items "id" = None ->
  make op (Some r) =
    inr (KeyError
           match dict_get items "resourceUri" with
           | None => "resourceUri"
           | Some _ => "id"
           end).
Proof.
  intros Hout Hdec Hmiss. unfold new. rewrite init_run.
  unfold json_decode. rewrite Hout, Hdec.
  destruct (dict_get items "resourceUri") as [uri|]; [|reflexivity].
  destruct Hmiss as [Hmiss|Hmiss]; [discriminate|].
  now rewrite Hmiss.
Qed.

(** When the decoder call leaves [doc] something else than a dict, the
    constructor returns the internal-error tracker: this covers
    [ValueError], [TypeError] (a body that is not text) and decoded values
    of other types. *)
Lemma init_not_dict op r :
  leaves_no_dict (json_decode json_loads (output r)) = true ->
  make op (Some r) =
    inl (internal_error (format_invalid response_str (Some r))
           (start op (Some r))).
Proof.
  intros Hnot. unfold new. rewrite init_run.
  destruct (json_decode json_loads (output r)) as [[| | | | | |items]|[]];
    try reflexivity; discriminate Hnot.
Qed.

(** An exception of the decoder other than the two that are caught leaves
    the constructor. *)
Lemma init_decoder_raises op r e :
  json_decode json_loads (output r) = inr e ->
  e <> ValueError -> e <> TypeError ->
  make op (Some r) = inr e.
Proof.
  intros Hdec Hv Ht. unfold new. rewrite init_run, Hdec.
  destruct e; try reflexivity; congruence.
Qed.

(** C3, amended: for every initial response whose body is a text on which
    the decoder raises [ValueError] (it is not JSON), or which it decodes to
    a value that is not an object, the constructor returns a tracker with
    [finished] true, [failed] true (the flag is [True] itself) and
    [current_state] the string [CITEST_INTERNAL_ERROR]. *)
Theorem malformed_response_internal_error op r s :
  output r = VStr s ->
  (json_loads s = inr ValueError \/
   exists v, json_loads s = inl v /\ isinstance_dict v = false) ->
  exists t,
    make op (Some r) = inl t /\
    finished t = true /\
    failed t = true /\ _failed t = VBool true /\
    _current_state t = VStr "CITEST_INTERNAL_ERROR".
Proof.
  intros Hout Hbad.
  eexists. split.
  - apply init_not_dict. unfold json_decode. rewrite Hout.
    destruct Hbad as [->|(v & -> & Hv)]; [reflexivity|].
    cbn. now rewrite Hv.
  - repeat split.
Qed.

(** *** Valid initial responses *)

(** C7: for every initial response whose body decodes to a JSON object with
    [resourceUri] and [id], the constructor returns a tracker that is not
    finished and not failed, whose [resource_uri] and [request_id] are the
    values of those two fields.  It is in the state before any poll
    (PENDING): [current_state], [exception_details] and the error text are
    still what the base constructor left. *)
Theorem valid_response_pending op r s items uri id :
  output r = VStr s ->
  json_loads s = inl (VDict items) ->
  dict_get items "resourceUri" = Some uri ->
  dict_get items "id" = Some id ->
  exists t,
    make op (Some r) = inl t /\
    finished t = false /\
    failed t = false /\ _failed t = VBool false /\
    resource_uri t = uri /\
    request_id t = id /\
    _current_state t = _current_state (super__init__ op (Some r)) /\
    _exception_details t = _exception_details (super__init__ op (Some r)) /\
    _error t = _error (super__init__ op (Some r)).
Proof.
  intros Hout Hdec Huri Hid.
  eexists. split.
  - unfold new. rewrite init_run. unfold json_decode.
    rewrite Hout, Hdec, Huri, Hid. reflexivity.
  - repeat split.
Qed.

(** C8: for every tracker constructed from an initial response with
    [resourceUri] and [id], after any sequence of poll documents fed to the
    update step (steps that raise included) [resource_uri] and [request_id]
    are the values captured by the constructor. *)
Theorem identifiers_never_change op r s items uri id t docs :
  output r = VStr s ->
  json_loads s = inl (VDict items) ->
  dict_get items "resourceUri" = Some uri ->
  dict_get items "id" = Some id ->
  make op (Some r) = inl t ->
  resource_uri (poll_all t docs) = uri /\
  request_id (poll_all t docs) = id.
Proof.
  intros Hout Hdec Huri Hid. unfold new. rewrite init_run.
  unfold json_decode. rewrite Hout, Hdec, Huri, Hid. intros [= <-].
  unfold resource_uri, request_id.
  destruct (poll_all_frame docs
              (set_request_id id (set_detail_path uri (start op (Some r)))))
    as (-> & -> & _).
  split; reflexivity.
Qed.

(** *** Reachable trackers *)

(** C4: in every tracker state reached by the constructor followed by any
    sequence of update steps, [failed] implies [finished], and
    [finished_ok] implies [finished] and not [failed]. *)
Theorem reachable_flags_invariant op resp t docs :
  make op resp = inl t ->
  (failed (poll_all t docs) = true -> finished (poll_all t docs) = true) /\
  (finished_ok (poll_all t docs) = true ->
   finished (poll_all t docs) = true /\ failed (poll_all t docs) = false).
Proof.
  intros Hnew.
  pose proof (poll_all_flags_ok docs t (new_flags_ok _ _ _ Hnew)) as Hok.
  unfold flags_ok, failed, finished, finished_ok in *.
  destruct (_finished (poll_all t docs)).
  - split; [reflexivity|]. cbn. intros H. split; [reflexivity|].
    now destruct (truthy (_failed (poll_all t docs))).
  - rewrite (Hok eq_refl). cbn. split; discriminate.
Qed.

(** C9: in every tracker state reached by the constructor followed by any
    sequence of update steps, [timed_out] is false. *)
Theorem timed_out_never op resp t docs :
  make op resp = inl t ->
  timed_out (poll_all t docs) = false.
Proof. intros _. reflexivity. Qed.

(** C10: for every tracker reached by the constructor and update steps that
    is not finished, the update step on a poll document whose status object
    has [completed] false and [failed] true returns, leaves [finished] false
    and [failed] false, and sets [exception_details] to the [status] entry
    of the status object. *)
Theorem failed_without_completed_update
    op resp t0 docs doc st phase detail :
  make op resp = inl t0 ->
  finished (poll_all t0 docs) = false ->
  poll_fields doc st (VBool false) (VBool true) phase ->
  getitem st "status" = inl detail ->
  exists t',
    _update_response_from_json doc (poll_all t0 docs) = (inl tt, t') /\
    finished t' = false /\
    failed t' = false /\ _failed t' = VBool false /\
    _exception_details t' = detail.
Proof.
  intros Hnew Hfin Hdoc Hdetail.
  pose proof (poll_all_flags_ok docs t0 (new_flags_ok _ _ _ Hnew) Hfin) as Hf.
  eexists. split.
  - rewrite (update_run _ _ _ _ _ _ Hdoc). cbn [truthy].
    rewrite Hdetail. reflexivity.
  - unfold after_flags, finished, failed. cbn. rewrite Hf. auto.
Qed.

End ConstructorFacts.

(** ** Deeply nested bodies *)

(** C3, as the claim states it, fails: a body of 2000 opening brackets is
    not JSON, and a body of 2000 nested arrays is JSON that is not an
    object; on both the decoder raises [RecursionError], which lines 62-65
    do not catch, so the constructor raises and makes no tracker. *)
Lemma malformed_response_may_raise :
  String.length Fixture.deep_open_text = 2000 /\
  Fixture.make Fixture.deep_open_text = inr RecursionError /\
  String.length Fixture.deep_array_text = 4000 /\
  Fixture.make Fixture.deep_array_text = inr RecursionError.
Proof. repeat split; vm_compute; reflexivity. Qed.

(** ** Completion *)

(** C5: for every tracker that is not finished, the update step on a poll
    document whose status object has [completed] true, [failed] true and a
    [status] entry with the failure detail returns and leaves [finished]
    true, [failed] true, [finished_ok] false and [exception_details] equal
    to that detail. *)
Theorem failed_completion_update t doc st phase detail :
  finished t = false ->
  poll_fields doc st (VBool true) (VBool true) phase ->
  getitem st "status" = inl detail ->
  exists t',
    _update_response_from_json doc t = (inl tt, t') /\
    finished t' = true /\
    failed t' = true /\ _failed t' = VBool true /\
    finished_ok t' = false /\
    _exception_details t' = detail.
Proof.
  intros _ Hdoc Hdetail. eexists. split.
  - rewrite (update_run _ _ _ _ _ _ Hdoc). cbn [truthy].
    rewrite Hdetail. reflexivity.
  - repeat split.
Qed.

(** C6: for every tracker that is not finished, the update step on a poll
    document whose status object has [completed] true and [failed] false
    returns and leaves [finished] true, [finished_ok] true and
    [exception_details] [None]. *)
Theorem successful_completion_update t doc st phase :
  finished t = false ->
  poll_fields doc st (VBool true) (VBool false) phase ->
  exists t',
    _update_response_from_json doc t = (inl tt, t') /\
    finished t' = true /\
    finished_ok t' = true /\
    _exception_details t' = VNone.
Proof.
  intros _ Hdoc. eexists. split.
  - rewrite (update_run _ _ _ _ _ _ Hdoc). cbn [truthy]. reflexivity.
  - repeat split.
Qed.

(** ** The update step on a finished tracker *)

(** C2, as the claim states it, fails: the tracker the constructor makes for
    a gateway error page is finished, and the update step on a document
    reporting success overwrites its [current_state] and its failure flag,
    after which [finished_ok] holds. *)
Lemma finished_update_not_noop :
  Fixture.make Fixture.gateway_error_text = inl Fixture.errored /\
  finished Fixture.errored = true /\
  observable (poll Fixture.errored Fixture.succeeded_doc)
    <> observable Fixture.errored /\
  _current_state (poll Fixture.errored Fixture.succeeded_doc)
    = VStr "SUCCEEDED" /\
  _failed (poll Fixture.errored Fixture.succeeded_doc) = VBool false /\
  finished_ok (poll Fixture.errored Fixture.succeeded_doc) = true.
Proof.
  repeat split; try reflexivity.
  intros H. vm_compute in H. discriminate H.
Qed.

(** C2, amended: for every finished tracker and every poll document, the
    update step (whether it returns or raises) leaves [finished] true and
    [resource_uri] and [request_id] unchanged.  It has no guard on
    [finished]: for a document whose status object has [completed],
    [failed] and [phase], [current_state] becomes the phase, the failure
    flag becomes the document's [failed] when [completed] is true, and
    [exception_details] becomes [None], or the [status] entry of the status
    object when [failed] is true. *)
Theorem finished_update_effect t doc :
  finished t = true ->
  finished (poll t doc) = true /\
  resource_uri (poll t doc) = resource_uri t /\
  request_id (poll t doc) = request_id t /\
  (forall st c f p,
     poll_fields doc st c f p ->
     _current_state (poll t doc) = p /\
     _failed (poll t doc) = (if truthy c then f else _failed t) /\
     (truthy f = false -> _exception_details (poll t doc) = VNone) /\
     (forall d, truthy f = true -> getitem st "status" = inl d ->
                _exception_details (poll t doc) = d)).
Proof.
  intros Hfin. unfold finished, resource_uri, request_id.
  destruct (poll_frame t doc) as (Hp & Hr & _).
  repeat split; auto using poll_finished_stays;
    unfold poll; rewrite (update_run _ _ _ _ _ t H); unfold after_flags.
  - destruct (truthy f), (getitem st "status"), (truthy c); reflexivity.
  - destruct (truthy f), (getitem st "status"), (truthy c); reflexivity.
  - intros ->. destruct (truthy c); reflexivity.
  - intros d -> ->. reflexivity.
Qed.

(** ** Further behaviour of the constructor *)

Section ConstructorEdges.

Variable Operation : Type.
Variable super__init__ : Operation -> option HttpResponseType -> KatoStatus.
Variable json_loads : string -> value + exn.
Variable response_str : HttpResponseType -> string.

Local Abbreviation make := (new Operation super__init__ json_loads response_str).

(** X1: with the default [original_response=None] the constructor raises
    [AttributeError] ([None] has no [output]); the [try] of lines 60-65 does
    not catch it, so no tracker is made. *)
Theorem init_without_response_raises op :
  make op None = inr AttributeError.
Proof. unfold new. rewrite init_run. reflexivity. Qed.

(** X2: a response whose body is not text ([None], a number, ...) makes the
    decoder raise [TypeError], which is caught: the constructor returns the
    internal-error tracker. *)
Theorem init_body_not_text op r :
  (forall s, output r <> VStr s) ->
  exists t,
    make op (Some r) = inl t /\
    finished t = true /\
    _failed t = VBool true /\
    finished_ok t = false /\
    _current_state t = VStr "CITEST_INTERNAL_ERROR".
Proof.
  intros Hnot. eexists. split.
  - apply init_not_dict. unfold json_decode.
    destruct (output r) as [| | | |s| |]; try reflexivity.
    now destruct (Hnot s).
  - repeat split.
Qed.

(** X3: the exceptions that leave the constructor are [AttributeError]
    (no response object), [KeyError] for [resourceUri] or [id] (a decoded
    dict without that key), and whatever the decoder raises on the body
    text other than [ValueError] and [TypeError], such as [RecursionError];
    [ValueError] and [TypeError] never leave it. *)
Theorem init_raises_only op resp e :
  make op resp = inr e ->
  e <> ValueError /\ e <> TypeError /\
  ((resp = None /\ e = AttributeError) \/
   (exists r s,
      resp = Some r /\ output r = VStr s /\ json_loads s = inr e) \/
   (exists r items,
      resp = Some r /\
      json_decode json_loads (output r) = inl (VDict items) /\
      ((dict_get items "resourceUri" = None /\ e = KeyError "resourceUri") \/
       (dict_get items "resourceUri" <> None /\
        dict_get items "id" = None /\ e = KeyError "id")))).
Proof.
  unfold new. rewrite init_run.
  destruct resp as [r|];
    [|intros [= <-]; repeat split; try discriminate; now left].
  destruct (json_decode json_loads (output r)) as [v|e'] eqn:Hdec.
  - destruct v as [| | | | | |items]; try discriminate.
    destruct (dict_get items "resourceUri") as [uri|] eqn:Huri.
    + destruct (dict_get items "id") as [id|] eqn:Hid; [discriminate|].
      intros [= <-]. repeat split; try discriminate.
      right. right. exists r, items.
      split; [reflexivity|]. split; [exact Hdec|].
      right. rewrite Huri.
      split; [discriminate|]. split; [exact Hid|reflexivity].
    + intros [= <-]. repeat split; try discriminate.
      right. right. exists r, items.
      split; [reflexivity|]. split; [exact Hdec|].
      left. split; [exact Huri|reflexivity].
  - unfold json_decode in Hdec.
    destruct (output r) as [| | | |s| |] eqn:Hout;
      try (injection Hdec as <-; discriminate).
    destruct e'; try discriminate;
      intros [= <-]; (repeat split; try discriminate);
      right; left; exists r, s; repeat split; assumption.
Qed.

(** X4: a tracker fresh from the constructor is never [finished_ok]; it is
    finished exactly when it is failed, and then its [current_state] is
    [CITEST_INTERNAL_ERROR]. *)
Theorem new_tracker_states op resp t :
  make op resp = inl t ->
  finished_ok t = false /\
  finished t = failed t /\
  (finished t = true -> _current_state t = VStr "CITEST_INTERNAL_ERROR").
Proof.
  unfold new. rewrite init_run.
  destruct resp as [r|]; [|discriminate].
  destruct (json_decode json_loads (output r)) as [[| | | | | |items]|[]];
    try discriminate;
    try (intros [= <-]; repeat split).
  destruct (dict_get items "resourceUri"); [|discriminate].
  destruct (dict_get items "id"); [|discriminate].
  intros [= <-]. repeat split. discriminate.
Qed.

(** X5: when [doc] is not a dict at line 67 (the decoder gave a value of
    another type, or raised one of the two exceptions that are caught), the
    tracker's error text is [Invalid response="..."] around [str] of the
    response, and the constructor assigns neither identifier nor
    [exception_details]: they stay as the base constructor left them, also
    after any sequence of update steps. *)
Theorem internal_error_tracker_attributes op r docs :
  leaves_no_dict (json_decode json_loads (output r)) = true ->
  exists t,
    make op (Some r) = inl t /\
    _error (poll_all t docs)
      = VStr ("Invalid response=" ++ dquote ++ response_str r ++ dquote) /\
    resource_uri (poll_all t docs) = _detail_path (super__init__ op (Some r)) /\
    request_id (poll_all t docs) = _request_id (super__init__ op (Some r)) /\
    _exception_details t = _exception_details (super__init__ op (Some r)).
Proof.
  intros Hnot. eexists. split; [apply init_not_dict, Hnot|].
  unfold resource_uri, request_id.
  match goal with
  | |- context [poll_all ?t docs] =>
      destruct (poll_all_frame docs t) as (-> & -> & ->)
  end.
  repeat split.
Qed.

End ConstructorEdges.

(** ** Further behaviour of the update step *)

(** A value with a subscript that succeeded is a dict. *)
Lemma getitem_inl_dict v key x :
  getitem v key = inl x -> exists items, v = VDict items.
Proof. destruct v; try discriminate. eauto. Qed.

Lemma getitem_raises v key e :
  getitem v key = inr e -> e = TypeError \/ e = KeyError key.
Proof.
  destruct v as [| | | | | |items]; cbn; try (intros [= <-]; now left).
  destruct (dict_get items key); [discriminate|].
  intros [= <-]. now right.
Qed.

(** X6: the update step returns exactly when the document has a [status]
    object with [completed], [failed] and [phase], and, when [failed] is
    true, also a [status] entry.  Whether it returns does not depend on the
    tracker. *)
Theorem update_returns_iff doc t :
  (exists t', _update_response_from_json doc t = (inl tt, t')) <->
  (exists st c f p,
     poll_fields doc st c f p /\
     (truthy f = true -> exists d, getitem st "status" = inl d)).
Proof.
  split.
  - intros (t' & Hrun).
    destruct (update_cases doc t) as [[e He]|(st & c & f & p & H)];
      [congruence|].
    exists st, c, f, p. split; [exact H|]. intros Hf.
    rewrite (update_run _ _ _ _ _ t H), Hf in Hrun.
    destruct (getitem st "status") as [d|e]; [eauto|discriminate].
  - intros (st & c & f & p & H & Hd).
    rewrite (update_run _ _ _ _ _ t H).
    destruct (truthy f); [|eauto].
    destruct (Hd eq_refl) as (d & ->). eauto.
Qed.

(** X7: a document without one of [status], [status.completed],
    [status.failed], [status.phase] makes the update step raise before its
    first assignment: the tracker is left exactly as it was. *)
Theorem update_missing_field_unchanged doc t :
  (forall st c f p, ~ poll_fields doc st c f p) ->
  exists e, _update_response_from_json doc t = (inr e, t).
Proof.
  intros Hnone.
  destruct (update_cases doc t) as [He|(st & c & f & p & H)]; [exact He|].
  now destruct (Hnone st c f p).
Qed.

(** X8: a document that reports [failed] but whose status object has no
    [status] entry makes line 90 raise [KeyError] after lines 84-88 ran: the
    tracker keeps the new [current_state], has [exception_details] [None],
    and is finished with the document's failure flag when [completed] is
    true. *)
Theorem update_missing_detail_partial doc st c f p t :
  poll_fields doc st c f p ->
  truthy f = true ->
  (forall d, getitem st "status" <> inl d) ->
  exists t',
    _update_response_from_json doc t = (inr (KeyError "status"), t') /\
    _current_state t' = p /\
    _exception_details t' = VNone /\
    (truthy c = true -> finished t' = true /\ _failed t' = f) /\
    (truthy c = false ->
     finished t' = finished t /\ _failed t' = _failed t).
Proof.
  intros H Hf Hnone. rewrite (update_run _ _ _ _ _ t H), Hf.
  destruct H as (_ & Hc & _).
  destruct (getitem_inl_dict _ _ _ Hc) as (items & ->).
  destruct (getitem (VDict items) "status") as [d|e] eqn:Hd;
    [now destruct (Hnone d)|].
  destruct (getitem_raises _ _ _ Hd) as [->| ->];
    [cbn in Hd; destruct (dict_get items "status"); discriminate|].
  eexists. split; [reflexivity|]. unfold after_flags.
  destruct (truthy c); repeat split; discriminate.
Qed.

(** X9: the update step raises nothing but [TypeError] and [KeyError], and
    [KeyError] only for one of the four keys it subscripts. *)
Theorem update_raises_only doc t e t' :
  _update_response_from_json doc t = (inr e, t') ->
  e = TypeError \/
  exists key,
    e = KeyError key /\ In key ["status"; "completed"; "failed"; "phase"].
Proof.
  unfold _update_response_from_json. run_method.
  destruct (getitem doc "status") as [st|e0] eqn:Hst.
  2:{ intros [= <- _]. destruct (getitem_raises _ _ _ Hst) as [->| ->];
      [now left|right; eexists; split; [reflexivity|cbn; auto]]. }
  destruct (getitem st "completed") as [c|e0] eqn:Hc.
  2:{ intros [= <- _]. destruct (getitem_raises _ _ _ Hc) as [->| ->];
      [now left|right; eexists; split; [reflexivity|cbn; auto]]. }
  destruct (getitem st "failed") as [f|e0] eqn:Hf.
  2:{ intros [= <- _]. destruct (getitem_raises _ _ _ Hf) as [->| ->];
      [now left|right; eexists; split; [reflexivity|cbn; auto]]. }
  destruct (getitem st "phase") as [p|e0] eqn:Hp.
  2:{ intros [= <- _]. destruct (getitem_raises _ _ _ Hp) as [->| ->];
      [now left|right; eexists; split; [reflexivity|cbn; auto 6]]. }
  destruct (truthy c), (truthy f); try discriminate;
    destruct (getitem st "status") as [d|e0] eqn:Hd; try discriminate;
    intros [= <- _]; (destruct (getitem_raises _ _ _ Hd) as [->| ->];
      [now left|right; eexists; split; [reflexivity|cbn; auto]]).
Qed.

(** X10: on a document that reports neither completion nor failure the
    update step returns and assigns only [current_state] (the phase) and
    [exception_details] ([None]); the flags and everything else stay. *)
Theorem update_in_progress doc st c f p t :
  poll_fields doc st c f p ->
  truthy c = false ->
  truthy f = false ->
  _update_response_from_json doc t
  = (inl tt, set_exception_details VNone (set_current_state p t)).
Proof.
  intros H Hc Hf. rewrite (update_run _ _ _ _ _ t H), Hf.
  unfold after_flags. now rewrite Hc.
Qed.

(** X11: when the document's [completed] is true (as a Python truth value),
    the tracker is finished after the step, returning or raising, and its
    failure flag is the document's [failed] value as it is, not coerced to a
    bool; [finished_ok] is the negation of that value's truth. *)
Theorem update_completed_takes_failed doc st c f p t :
  poll_fields doc st c f p ->
  truthy c = true ->
  finished (poll t doc) = true /\
  _failed (poll t doc) = f /\
  finished_ok (poll t doc) = negb (truthy f) /\
  _current_state (poll t doc) = p.
Proof.
  intros H Hc. unfold poll, finished_ok, finished.
  rewrite (update_run _ _ _ _ _ t H). unfold after_flags. rewrite Hc.
  destruct (truthy f) eqn:Hf;
    [destruct (getitem st "status")|]; cbn; rewrite ?Hf; repeat split.
Qed.

(** X12: feeding the same document twice is the same as feeding it once:
    the second step has the same outcome and leaves the tracker as the first
    did. *)
Theorem poll_idempotent doc t :
  _update_response_from_json doc (poll t doc)
  = (fst (_update_response_from_json doc t), poll t doc).
Proof.
  unfold poll.
  destruct (update_cases doc t) as [[e He]|(st & c & f & p & H)].
  - rewrite He. cbn. exact He.
  - rewrite !(update_run _ _ _ _ _ _ H). unfold after_flags.
    destruct (truthy f), (getitem st "status"), (truthy c); reflexivity.
Qed.

(** X13: a finished tracker stays finished through any sequence of update
    steps, whatever the documents and whichever steps raise. *)
Theorem finished_is_permanent docs : forall t,
  finished t = true -> finished (poll_all t docs) = true.
Proof.
  induction docs as [|doc docs IH]; intros t Ht; [exact Ht|].
  cbn [poll_all fold_left]. apply IH, poll_finished_stays, Ht.
Qed.

(** X14: the last document decides.  Whatever the tracker was and whatever
    documents came before, after a final document whose [completed] is true
    the tracker is finished, its failure flag is that document's [failed]
    and its [current_state] that document's phase; an earlier failure or
    internal error is overwritten. *)
Theorem last_completed_document_decides t docs doc st c f p :
  poll_fields doc st c f p ->
  truthy c = true ->
  finished (poll_all t (docs ++ [doc])) = true /\
  _failed (poll_all t (docs ++ [doc])) = f /\
  finished_ok (poll_all t (docs ++ [doc])) = negb (truthy f) /\
  _current_state (poll_all t (docs ++ [doc])) = p.
Proof.
  intros H Hc. unfold poll_all. rewrite fold_left_app. cbn [fold_left].
  fold (poll_all t docs). unfold poll, finished_ok, finished.
  rewrite (update_run _ _ _ _ _ _ H). unfold after_flags. rewrite Hc.
  destruct (truthy f) eqn:Hf;
    [destruct (getitem st "status")|]; cbn; rewrite ?Hf; repeat split.
Qed.

(** ** The properties on concrete responses and documents *)

Module Run.
Import Fixture.

Example loads_object :
  Json.loads submitted_text
  = inl (VDict [("id", VStr "42"); ("resourceUri", VStr "/task/42")]).
Proof. reflexivity. Qed.

Example loads_nested :
  Json.loads "{ }" = inl (VDict []) /\
  Json.loads " [1, -20, [true, null], {}] "
  = inl (VList [VInt 1; VInt (-20); VList [VBool true; VNone]; VDict []]).
Proof. split; reflexivity. Qed.

Example loads_rejects :
  Json.loads gateway_error_text = inr ValueError /\
  Json.loads "[1,]" = inr ValueError /\
  Json.loads "{} {}" = inr ValueError /\
  Json.loads EmptyString = inr ValueError.
Proof. repeat split. Qed.

(** Nesting: three levels decode; 2000 levels exceed the recursion limit,
    whether the text is left open or is a well-formed array. *)
Example loads_nesting :
  Json.loads "[[[]]]" = inl (VList [VList [VList []]]) /\
  Json.loads deep_open_text = inr RecursionError /\
  Json.loads deep_array_text = inr RecursionError.
Proof. repeat split; vm_compute; reflexivity. Qed.

Example loads_repeated_key :
  Json.loads ("{" ++ key "a" ++ ":1," ++ key "b" ++ ":2," ++ key "a" ++ ":3}")
  = inl (VDict [("a", VInt 3); ("b", VInt 2)]).
Proof. reflexivity. Qed.

(** A poll on a document without [status], or on one that is no dict,
    raises and leaves the tracker as it was. *)
Example poll_without_status :
  _update_response_from_json (VDict []) submitted
  = (inr (KeyError "status"), submitted) /\
  _update_response_from_json VNone submitted = (inr TypeError, submitted).
Proof. split; reflexivity. Qed.

(** A poll that reports a running operation. *)
Example poll_running :
  _update_response_from_json running_doc submitted
  = (inl tt, set_current_state (VStr "RUNNING") submitted).
Proof. reflexivity. Qed.

(** A document with [failed] true and no [status] entry: line 90 raises
    after the flags are assigned. *)
Example poll_failed_without_detail :
  _update_response_from_json (poll_doc true true "FAILED" []) submitted
  = (inr (KeyError "status"),
     set_failed (VBool true)
       (set_finished true (set_current_state (VStr "FAILED") submitted))).
Proof. reflexivity. Qed.

Example make_submitted : make submitted_text = inl submitted.
Proof. reflexivity. Qed.

Example make_no_id : make no_id_text = inr (KeyError "id").
Proof. reflexivity. Qed.

Example make_array : exists t, make array_text = inl t /\ finished t = true.
Proof. eexists. split; reflexivity. Qed.

Lemma init_missing_identifier_raises_witness :
  make no_identifier_text = inr (KeyError "resourceUri").
Proof.
  exact (init_missing_identifier_raises string super__init__ Json.loads
           response_str operation (response no_identifier_text)
           no_identifier_text [] eq_refl eq_refl (or_introl eq_refl)).
Defined.

Lemma malformed_response_internal_error_witness :
  (exists t,
     make gateway_error_text = inl t /\
     finished t = true /\
     failed t = true /\ _failed t = VBool true /\
     _current_state t = VStr "CITEST_INTERNAL_ERROR") /\
  (exists t,
     make array_text = inl t /\
     finished t = true /\
     failed t = true /\ _failed t = VBool true /\
     _current_state t = VStr "CITEST_INTERNAL_ERROR").
Proof.
  split.
  - apply (malformed_response_internal_error string super__init__ Json.loads
             response_str operation (response gateway_error_text)
             gateway_error_text).
    + reflexivity.
    + left. reflexivity.
  - apply (malformed_response_internal_error string super__init__ Json.loads
             response_str operation (response array_text) array_text).
    + reflexivity.
    + right. exists (VList [VInt 1; VInt 2]). split; reflexivity.
Defined.

Lemma valid_response_pending_witness :
  exists t,
    make submitted_text = inl t /\
    finished t = false /\
    failed t = false /\ _failed t = VBool false /\
    resource_uri t = VStr "/task/42" /\
    request_id t = VStr "42" /\
    _current_state t = VNone /\
    _exception_details t = VNone /\
    _error t = VNone.
Proof.
  apply (valid_response_pending string super__init__ Json.loads
           response_str operation (response submitted_text) submitted_text
           [("id", VStr "42"); ("resourceUri", VStr "/task/42")]);
    reflexivity.
Defined.

Lemma identifiers_never_change_witness :
  resource_uri (poll_all submitted [running_doc; VNone; failed_doc; succeeded_doc])
    = VStr "/task/42" /\
  request_id (poll_all submitted [running_doc; VNone; failed_doc; succeeded_doc])
    = VStr "42".
Proof.
  apply (identifiers_never_change string super__init__ Json.loads
           response_str operation (response submitted_text) submitted_text
           [("id", VStr "42"); ("resourceUri", VStr "/task/42")]);
    reflexivity.
Defined.

Lemma reachable_flags_invariant_witness :
  (failed (poll_all submitted [running_doc; failed_doc]) = true ->
   finished (poll_all submitted [running_doc; failed_doc]) = true) /\
  (finished_ok (poll_all submitted [running_doc; failed_doc]) = true ->
   finished (poll_all submitted [running_doc; failed_doc]) = true /\
   failed (poll_all submitted [running_doc; failed_doc]) = false).
Proof.
  apply (reachable_flags_invariant string super__init__ Json.loads
           response_str operation (Some (response submitted_text))).
  reflexivity.
Defined.

Lemma timed_out_never_witness :
  timed_out (poll_all errored [running_doc; succeeded_doc]) = false.
Proof.
  apply (timed_out_never string super__init__ Json.loads
           response_str operation (Some (response gateway_error_text))).
  reflexivity.
Defined.

Lemma failed_without_completed_update_witness :
  exists t',
    _update_response_from_json failing_step_doc
      (poll_all submitted [running_doc]) = (inl tt, t') /\
    finished t' = false /\
    failed t' = false /\ _failed t' = VBool false /\
    _exception_details t' = failed_detail.
Proof.
  apply (failed_without_completed_update string super__init__ Json.loads
           response_str operation (Some (response submitted_text))
           submitted [running_doc] failing_step_doc
           (poll_status false true "ORCHESTRATION" [("status", failed_detail)])
           (VStr "ORCHESTRATION") failed_detail).
  - reflexivity.
  - reflexivity.
  - repeat split.
  - reflexivity.
Defined.

Lemma failed_completion_update_witness :
  exists t',
    _update_response_from_json failed_doc submitted = (inl tt, t') /\
    finished t' = true /\
    failed t' = true /\ _failed t' = VBool true /\
    finished_ok t' = false /\
    _exception_details t' = failed_detail.
Proof.
  apply (failed_completion_update submitted failed_doc
           (poll_status true true "FAILED" [("status", failed_detail)])
           (VStr "FAILED") failed_detail).
  - reflexivity.
  - repeat split.
  - reflexivity.
Defined.

Lemma successful_completion_update_witness :
  exists t',
    _update_response_from_json succeeded_doc submitted = (inl tt, t') /\
    finished t' = true /\
    finished_ok t' = true /\
    _exception_details t' = VNone.
Proof.
  apply (successful_completion_update submitted succeeded_doc
           (poll_status true false "SUCCEEDED" []) (VStr "SUCCEEDED")).
  - reflexivity.
  - repeat split.
Defined.

Lemma finished_update_effect_witness :
  finished (poll errored succeeded_doc) = true /\
  resource_uri (poll errored succeeded_doc) = resource_uri errored /\
  request_id (poll errored succeeded_doc) = request_id errored /\
  (forall st c f p,
     poll_fields succeeded_doc st c f p ->
     _current_state (poll errored succeeded_doc) = p /\
     _failed (poll errored succeeded_doc)
       = (if truthy c then f else _failed errored) /\
     (truthy f = false ->
      _exception_details (poll errored succeeded_doc) = VNone) /\
     (forall d, truthy f = true -> getitem st "status" = inl d ->
                _exception_details (poll errored succeeded_doc) = d)).
Proof.
  apply (finished_update_effect errored succeeded_doc). reflexivity.
Defined.

(** A response without body text. *)
Lemma init_body_not_text_witness :
  exists t,
    new string super__init__ Json.loads response_str operation
      (Some {| output := VNone |}) = inl t /\
    finished t = true /\
    _failed t = VBool true /\
    finished_ok t = false /\
    _current_state t = VStr "CITEST_INTERNAL_ERROR".
Proof.
  apply (init_body_not_text string super__init__ Json.loads response_str
           operation {| output := VNone |}).
  intros s H. discriminate H.
Defined.

Lemma init_raises_only_witness :
  RecursionError <> ValueError /\ RecursionError <> TypeError /\
  ((Some (response deep_open_text) = None /\
    RecursionError = AttributeError) \/
   (exists r s,
      Some (response deep_open_text) = Some r /\
      output r = VStr s /\ Json.loads s = inr RecursionError) \/
   (exists r items,
      Some (response deep_open_text) = Some r /\
      json_decode Json.loads (output r) = inl (VDict items) /\
      ((dict_get items "resourceUri" = None /\
        RecursionError = KeyError "resourceUri") \/
       (dict_get items "resourceUri" <> None /\
        dict_get items "id" = None /\ RecursionError = KeyError "id")))).
Proof.
  apply (init_raises_only string super__init__ Json.loads response_str
           operation (Some (response deep_open_text)) RecursionError).
  vm_compute. reflexivity.
Defined.

Lemma new_tracker_states_witness :
  finished_ok submitted = false /\
  finished submitted = failed submitted /\
  (finished submitted = true ->
   _current_state submitted = VStr "CITEST_INTERNAL_ERROR").
Proof.
  apply (new_tracker_states string super__init__ Json.loads response_str
           operation (Some (response submitted_text)) submitted).
  reflexivity.
Defined.

Lemma internal_error_tracker_attributes_witness :
  exists t,
    make gateway_error_text = inl t /\
    _error (poll_all t [running_doc; succeeded_doc])
      = VStr ("Invalid response=" ++ dquote
              ++ response_str (response gateway_error_text) ++ dquote) /\
    resource_uri (poll_all t [running_doc; succeeded_doc]) = VNone /\
    request_id (poll_all t [running_doc; succeeded_doc]) = VNone /\
    _exception_details t = VNone.
Proof.
  apply (internal_error_tracker_attributes string super__init__ Json.loads
           response_str operation (response gateway_error_text)
           [running_doc; succeeded_doc]).
  reflexivity.
Defined.

Lemma update_missing_field_unchanged_witness :
  exists e, _update_response_from_json (VDict [("id", VStr "42")]) submitted
            = (inr e, submitted).
Proof.
  apply (update_missing_field_unchanged (VDict [("id", VStr "42")]) submitted).
  intros st c f p (H & _). discriminate H.
Defined.

Lemma update_missing_detail_partial_witness :
  exists t',
    _update_response_from_json (poll_doc true true "FAILED" []) submitted
    = (inr (KeyError "status"), t') /\
    _current_state t' = VStr "FAILED" /\
    _exception_details t' = VNone /\
    (truthy (VBool true) = true ->
     finished t' = true /\ _failed t' = VBool true) /\
    (truthy (VBool true) = false ->
     finished t' = finished submitted /\ _failed t' = _failed submitted).
Proof.
  apply (update_missing_detail_partial (poll_doc true true "FAILED" [])
           (poll_status true true "FAILED" [])).
  - repeat split.
  - reflexivity.
  - intros d H. discriminate H.
Defined.

Lemma update_raises_only_witness :
  KeyError "phase" = TypeError \/
  exists key,
    KeyError "phase" = KeyError key /\
    In key ["status"; "completed"; "failed"; "phase"].
Proof.
  apply (update_raises_only
           (VDict [("status", VDict [("completed", VBool true);
                                     ("failed", VBool false)])])
           submitted (KeyError "phase") submitted).
  reflexivity.
Defined.

Lemma update_in_progress_witness :
  _update_response_from_json running_doc submitted
  = (inl tt,
     set_exception_details VNone
       (set_current_state (VStr "RUNNING") submitted)).
Proof.
  apply (update_in_progress running_doc
           (poll_status false false "RUNNING" [])
           (VBool false) (VBool false)).
  - repeat split.
  - reflexivity.
  - reflexivity.
Defined.

(** A document whose flags are not booleans: [completed] is [1] and
    [failed] is the empty string. *)
Lemma update_completed_takes_failed_witness :
  finished (poll submitted
              (VDict [("status", VDict [("completed", VInt 1);
                                        ("failed", VStr EmptyString);
                                        ("phase", VStr "DONE")])])) = true /\
  _failed (poll submitted
             (VDict [("status", VDict [("completed", VInt 1);
                                       ("failed", VStr EmptyString);
                                       ("phase", VStr "DONE")])]))
    = VStr EmptyString /\
  finished_ok (poll submitted
                 (VDict [("status", VDict [("completed", VInt 1);
                                           ("failed", VStr EmptyString);
                                           ("phase", VStr "DONE")])]))
    = negb (truthy (VStr EmptyString)) /\
  _current_state (poll submitted
                    (VDict [("status", VDict [("completed", VInt 1);
                                              ("failed", VStr EmptyString);
                                              ("phase", VStr "DONE")])]))
    = VStr "DONE".
Proof.
  apply (update_completed_takes_failed _
           (VDict [("completed", VInt 1); ("failed", VStr EmptyString);
                   ("phase", VStr "DONE")])
           (VInt 1)).
  - repeat split.
  - reflexivity.
Defined.

Lemma finished_is_permanent_witness :
  finished (poll_all errored [running_doc; VNone; failed_doc]) = true.
Proof.
  apply (finished_is_permanent [running_doc; VNone; failed_doc] errored).
  reflexivity.
Defined.

Lemma last_completed_document_decides_witness :
  finished (poll_all errored ([running_doc; failed_doc] ++ [succeeded_doc]))
    = true /\
  _failed (poll_all errored ([running_doc; failed_doc] ++ [succeeded_doc]))
    = VBool false /\
  finished_ok (poll_all errored ([running_doc; failed_doc] ++ [succeeded_doc]))
    = negb (truthy (VBool false)) /\
  _current_state
    (poll_all errored ([running_doc; failed_doc] ++ [succeeded_doc]))
    = VStr "SUCCEEDED".
Proof.
  apply (last_completed_document_decides errored [running_doc; failed_doc]
           succeeded_doc (poll_status true false "SUCCEEDED" [])
           (VBool true)).
  - repeat split.
  - reflexivity.
Defined.

End Run.
